(** * hyperglass: query construction ([hyperglass/command/construct.py])

    A shallow embedding of the [Construct] class, which turns a validated
    looking-glass request into the command (transport "scrape") or the JSON
    payload (transport "rest") to run against a network device.

    Python strings are Rocq strings, one character per code point below 256.
    Exceptions are values of [exn]; a computation that may raise and that may
    read the command catalog lives in the monad [M], which records every
    catalog access in a trace.  The [log.debug] calls only format diagnostics
    and are left out. *)

From Stdlib Require Import Ascii String.
From stdpp Require Import base option list strings gmap.

Local Open Scope string_scope.
Local Open Scope list_scope.

(** ** Exceptions, outcomes and the access trace *)

Module Py.

(** The Python exceptions the class can let escape.  [AttributeError]
    carries the name of the attribute that was not found, [KeyError] the
    missing key, [ValueError] and [IndexError] the text they complain
    about. *)
Inductive exn :=
| ValueError (what : string)
| AttributeError (name : string)
| KeyError (key : string)
| IndexError (what : string).

Inductive outcome (A : Type) :=
| Return (a : A)
| Raise (e : exn).
Arguments Return {A} a.
Arguments Raise {A} e.

(** One event per call of [operator.attrgetter(cmd_path)(commands)]. *)
Inductive event :=
| CatalogAccess (cmd_path : string).

Definition M (A : Type) : Type := list event * outcome A.

#[global] Instance M_ret : MRet M := λ A a, ([], Return a).

#[global] Instance M_bind : MBind M := λ A B f m,
  match m with
  | (t, Return a) => let '(t', r) := f a in (t ++ t', r)
  | (t, Raise e) => (t, Raise e)
  end.

Definition raise {A} (e : exn) : M A := ([], Raise e).

Definition tell (ev : event) : M unit := ([ev], Return tt).

Definition lift {A} (o : outcome A) : M A := ([], o).

Definition trace {A} (m : M A) : list event := fst m.

Definition result {A} (m : M A) : outcome A := snd m.

(** Python truthiness of a string: the empty string is false. *)
Definition truthy (s : string) : bool := negb (String.eqb s "").

(** [getattr(obj, name)] on an object whose data attributes are the keys of
    a finite map.  The attributes that Python gives every object
    ([__class__], [__doc__], ...) are not among them: the model answers for
    the names that can only be data attributes, see [plain_name]. *)
Definition getattr {A} (obj : gmap string A) (name : string) : M A :=
  match obj !! name with
  | Some v => mret v
  | None => raise (AttributeError name)
  end.

(** [d[key]] on a dict. *)
Definition getitem {A} (d : gmap string A) (key : string) : M A :=
  match d !! key with
  | Some v => mret v
  | None => raise (KeyError key)
  end.

(** [s.split(sep)] for a one-character separator. *)
Fixpoint split (sep : ascii) (s : string) : list string :=
  match s with
  | "" => [""]
  | String c s' =>
      if Ascii.eqb c sep then "" :: split sep s'
      else match split sep s' with
           | w :: ws => String c w :: ws
           | [] => [String c ""]
           end
  end.

End Py.
Import Py.

(** ** The two versions of the Internet Protocol *)

Inductive ip_version := IPv4 | IPv6.

(** What [f"{version}"] prints for the integer 4 or 6. *)
Definition version_str (v : ip_version) : string :=
  match v with IPv4 => "4" | IPv6 => "6" end.

(** An [ipaddress.IPv4Address] or [ipaddress.IPv6Address], by its integer. *)
Inductive ip_address :=
| IPv4Address (ip : N)
| IPv6Address (ip : N).

Definition digit_char (n : N) : ascii :=
  ascii_of_N (if (n <? 10)%N then 48 + n else 87 + n).

Definition dec_octet (n : N) : string :=
  if (n <? 10)%N then String (digit_char n) ""
  else if (n <? 100)%N then
    String (digit_char (n / 10)) (String (digit_char (n mod 10)) "")
  else
    String (digit_char (n / 100))
      (String (digit_char (n / 10 mod 10)) (String (digit_char (n mod 10)) "")).

Definition hex4 (n : N) : string :=
  String (digit_char (n / 4096 mod 16))
    (String (digit_char (n / 256 mod 16))
       (String (digit_char (n / 16 mod 16)) (String (digit_char (n mod 16)) ""))).

(** [sep.join(parts)] *)
Fixpoint join (sep : string) (parts : list string) : string :=
  match parts with
  | [] => ""
  | [p] => p
  | p :: ps => p +:+ sep +:+ join sep ps
  end.

(** The [i]-th group of [width] bits of [n], counted from the low end. *)
Definition group (width : N) (n : N) (i : N) : N :=
  (N.shiftr n (width * i) mod 2 ^ width)%N.

(** The [exploded] attribute: dotted quad, or eight groups of four
    hexadecimal digits. *)
Definition exploded (a : ip_address) : string :=
  match a with
  | IPv4Address ip => join "." (map (λ i, dec_octet (group 8 ip i)) [3; 2; 1; 0]%N)
  | IPv6Address ip =>
      join ":" (map (λ i, hex4 (group 16 ip i)) [7; 6; 5; 4; 3; 2; 1; 0]%N)
  end.

(** ** [json.dumps] of a dict whose keys and values are strings

    Default options: separators [", "] and [": "], [ensure_ascii] on, keys in
    insertion order. *)

Definition dquote : ascii := "034"%char.
Definition backslash : ascii := "092"%char.

Definition json_escape_char (c : ascii) : string :=
  let n := N_of_ascii c in
  if Ascii.eqb c dquote then String backslash (String dquote "")
  else if Ascii.eqb c backslash then String backslash (String backslash "")
  else if (n =? 10)%N then String backslash "n"
  else if (n =? 13)%N then String backslash "r"
  else if (n =? 9)%N then String backslash "t"
  else if (n =? 12)%N then String backslash "f"
  else if (n =? 8)%N then String backslash "b"
  else if (32 <=? n)%N && (n <=? 126)%N then String c ""
  else String backslash ("u00" +:+
         String (digit_char (n / 16)) (String (digit_char (n mod 16)) "")).

Fixpoint json_escape (s : string) : string :=
  match s with
  | "" => ""
  | String c s' => json_escape_char c +:+ json_escape s'
  end.

Definition json_string (s : string) : string :=
  String dquote (json_escape s +:+ String dquote "").

Definition json_item (kv : string * string) : string :=
  json_string kv.1 +:+ ": " +:+ json_string kv.2.

Definition json_dumps (d : list (string * string)) : string :=
  "{" +:+ join ", " (map json_item d) +:+ "}".

(** ** Reading a payload back

    [json_loads] reads a JSON object of strings laid out as [json.dumps]
    writes it (separators [", "] and [": "], no other white space), with
    every escape of JSON in the strings. *)

Definition hex_value (c : ascii) : option N :=
  let n := N_of_ascii c in
  if (48 <=? n)%N && (n <=? 57)%N then Some (n - 48)%N
  else if (97 <=? n)%N && (n <=? 102)%N then Some (n - 87)%N
  else if (65 <=? n)%N && (n <=? 70)%N then Some (n - 55)%N
  else None.

(** The character an escape letter stands for. *)
Definition unescape (e : ascii) : option ascii :=
  if Ascii.eqb e dquote then Some dquote
  else if Ascii.eqb e backslash then Some backslash
  else if Ascii.eqb e "/" then Some "/"%char
  else if Ascii.eqb e "n" then Some "010"%char
  else if Ascii.eqb e "r" then Some "013"%char
  else if Ascii.eqb e "t" then Some "009"%char
  else if Ascii.eqb e "f" then Some "012"%char
  else if Ascii.eqb e "b" then Some "008"%char
  else None.

(** Reads a string from just after its opening quote: the decoded text and
    what follows the closing quote. *)
Fixpoint json_read_string (s : string) : option (string * string) :=
  match s with
  | "" => None
  | String c rest =>
      if Ascii.eqb c dquote then Some ("", rest)
      else if Ascii.eqb c backslash then
        match rest with
        | "" => None
        | String e rest1 =>
            if Ascii.eqb e "u" then
              match rest1 with
              | String z1 (String z2 (String h (String l rest2))) =>
                  if Ascii.eqb z1 "0" && Ascii.eqb z2 "0" then
                    match hex_value h, hex_value l, json_read_string rest2 with
                    | Some a, Some b, Some (d, r) =>
                        Some (String (ascii_of_N (16 * a + b)) d, r)
                    | _, _, _ => None
                    end
                  else None
              | _ => None
              end
            else
              match unescape e, json_read_string rest1 with
              | Some x, Some (d, r) => Some (String x d, r)
              | _, _ => None
              end
        end
      else if (N_of_ascii c <? 32)%N then None
      else
        match json_read_string rest with
        | Some (d, r) => Some (String c d, r)
        | None => None
        end
  end.

Fixpoint strip_prefix (p s : string) : option string :=
  match p, s with
  | "", _ => Some s
  | String a p', String b s' =>
      if Ascii.eqb a b then strip_prefix p' s' else None
  | String _ _, "" => None
  end.

Definition json_read_item (s : string) : option ((string * string) * string) :=
  s1 ← strip_prefix (String dquote "") s;
  '(k, s2) ← json_read_string s1;
  s3 ← strip_prefix (": " +:+ String dquote "") s2;
  '(v, s4) ← json_read_string s3;
  Some ((k, v), s4).

Fixpoint json_read_items (fuel : nat) (s : string)
    : option (list (string * string)) :=
  match fuel with
  | O => None
  | S fuel' =>
      '(kv, rest) ← json_read_item s;
      if String.eqb rest "}" then Some [kv]
      else
        rest' ← strip_prefix ", " rest;
        items ← json_read_items fuel' rest';
        Some (kv :: items)
  end.

Definition json_loads (s : string) : option (list (string * string)) :=
  body ← strip_prefix "{" s;
  if String.eqb body "}" then Some []
  else json_read_items (String.length s) body.

(** ** Configuration objects *)

(** Modelled from the spec: the AFI record, one of the classes of
    [hyperglass.configuration], which are not part of this file.  It has
    three string fields. *)
Record Afi := {
  afi_name : string;
  vrf_name : string;
  source_address : string;
}.

Module Device.

(** Modelled from the spec: the device object of
    [hyperglass.configuration].  [vrfs] is an object with one attribute per
    VRF name, and a VRF has one attribute per address family ("ipv4",
    "ipv6"), an AFI record; [commands] is the name of the device's command
    set.  [attrs] holds the other attributes of the device, the ones that
    [get_src] reaches by name. *)
Record t := {
  vrfs : gmap string (gmap string Afi);
  commands : string;
  attrs : gmap string ip_address;
}.

End Device.

(** Modelled from the spec: the command catalog, the object [commands] of
    [hyperglass.configuration], a nested mapping from platform to cmd_type
    to query_type to template string. *)
Abbreviation Catalog := (gmap string (gmap string (gmap string string))).

(** The objects met while walking an attribute path into the catalog. *)
Inductive node :=
| NCommands (c : Catalog)
| NPlatform (p : gmap string (gmap string string))
| NCmdType (q : gmap string string)
| NTemplate (t : string).

Definition lookup_attr {A} (wrap : A → node) (obj : gmap string A)
    (name : string) : outcome node :=
  match obj !! name with
  | Some v => Return (wrap v)
  | None => Raise (AttributeError name)
  end.

(** [getattr] on a catalog object, for its data attributes; a template
    string has none.  As for [getattr], the attributes of every object and
    the methods of every string are left out, so the model answers for paths
    of three names that can only be data attributes, see [plain_name]. *)
Definition node_getattr (o : node) (name : string) : outcome node :=
  match o with
  | NCommands c => lookup_attr NPlatform c name
  | NPlatform p => lookup_attr NCmdType p name
  | NCmdType q => lookup_attr NTemplate q name
  | NTemplate _ => Raise (AttributeError name)
  end.

Fixpoint walk (names : list string) (obj : node) : outcome node :=
  match names with
  | [] => Return obj
  | name :: rest =>
      match node_getattr obj name with
      | Return obj' => walk rest obj'
      | Raise e => Raise e
      end
  end.

(** The name at which [walk] raises, if it does. *)
Fixpoint first_missing (names : list string) (obj : node) : option string :=
  match names with
  | [] => None
  | name :: rest =>
      match node_getattr obj name with
      | Return obj' => first_missing rest obj'
      | Raise _ => Some name
      end
  end.

(** [operator.attrgetter(attr)(obj)]: the path is split at every dot. *)
Definition attrgetter (attr : string) (obj : node) : outcome node :=
  walk (split "." attr) obj.

(** Whether the character [c] occurs in [s]. *)
Fixpoint mem_char (c : ascii) (s : string) : bool :=
  match s with
  | "" => false
  | String c' s' => Ascii.eqb c' c || mem_char c s'
  end.

(** A name that can only be a data attribute: it has no dot, so that
    [attrgetter] does not split it, and it does not begin with an
    underscore, as the attributes that Python gives every object do.  The
    four values of [cmd_type] and the five tags are such names. *)
Definition plain_name (s : string) : bool :=
  negb (mem_char "." s) &&
  match s with
  | String c _ => negb (Ascii.eqb c "_")
  | "" => true
  end.


(** The value a builder returns. *)
Inductive pyval :=
| PyNone
| PyStr (s : string)
| PyList (l : list string).

(** The instance attributes set by [__init__]. *)
Record Construct := {
  device : Device.t;
  query_data : gmap string string;
  transport : string;
  query_target : string;
  query_vrf : string;
  cmd_type : string;
}.

(** ** Functions of the Python runtime that the class calls

    [ip_network_version s] is [ipaddress.ip_network(s).version], [None] when
    [ip_network] raises [ValueError]; [str_format t kw] is
    [t.format] called with the keyword arguments [kw], all strings. *)
Class Runtime := {
  ip_network_version : string → option ip_version;
  str_format : string → list (string * string) → outcome string;
}.

(** ** The class [Construct] *)

Section Construct.

Context `{RT : Runtime}.

(** The module-level import [from hyperglass.configuration import commands]. *)
Variable commands : Catalog.

(** [ipaddress.ip_network(address).version] *)
Definition ip_network_protocol (address : string) : M ip_version :=
  match ip_network_version address with
  | Some v => mret v
  | None => raise (ValueError address)
  end.

(** [Construct.get_src] *)
Definition get_src (device : Device.t) (afi : string) : M string :=
  let src_afi := "src_addr_" +:+ afi in
  src ← getattr (Device.attrs device) src_afi;
  mret (exploded src).

(** [Construct.device_commands] *)
Definition device_commands (nos afi query_type : string) : M node :=
  let cmd_path := nos +:+ "." +:+ afi +:+ "." +:+ query_type in
  _ ← tell (CatalogAccess cmd_path);
  lift (attrgetter cmd_path (NCommands commands)).

(** [Construct.get_cmd_type] *)
Definition get_cmd_type (query_target query_vrf : string) : M string :=
  protocol ← ip_network_protocol query_target;
  if truthy query_vrf && negb (String.eqb query_vrf "default") then
    mret ("ipv" +:+ version_str protocol +:+ "_vrf")
  else
    mret ("ipv" +:+ version_str protocol +:+ "_default").

(** [Construct.__init__] *)
Definition __init__ (device : Device.t) (query_data : gmap string string)
    (transport : string) : M Construct :=
  query_target ← getitem query_data "query_target";
  query_vrf ← getitem query_data "query_vrf";
  cmd_type ← get_cmd_type query_target query_vrf;
  mret {| device := device; query_data := query_data; transport := transport;
          query_target := query_target; query_vrf := query_vrf;
          cmd_type := cmd_type |}.

(** [cmd.format(...)]: only a template string has the method. *)
Definition format (cmd : node) (kwargs : list (string * string)) : M string :=
  match cmd with
  | NTemplate t => lift (str_format t kwargs)
  | _ => raise (AttributeError "format")
  end.

(** [Construct.ping] *)
Definition ping (self : Construct) : M pyval :=
  let query : list string := [] in
  protocol ← ip_network_protocol (query_target self);
  let query_protocol := "ipv" +:+ version_str protocol in
  vrf ← getattr (Device.vrfs (device self)) (query_vrf self);
  afi ← getattr vrf query_protocol;
  if String.eqb (transport self) "rest" then
    mret (PyList (query ++ [json_dumps [
      ("query_type", "ping");
      ("afi", afi_name afi);
      ("vrf", vrf_name afi);
      ("source", source_address afi);
      ("target", query_target self)]]))
  else if String.eqb (transport self) "scrape" then
    cmd ← device_commands (Device.commands (device self)) (cmd_type self) "ping";
    line ← format cmd [
      ("target", query_target self);
      ("source", source_address afi);
      ("vrf", vrf_name afi);
      ("afi", afi_name afi)];
    mret (PyList (query ++ [line]))
  else
    mret (PyList query).

(** [Construct.traceroute] *)
Definition traceroute (self : Construct) : M pyval :=
  let query : list string := [] in
  protocol ← ip_network_protocol (query_target self);
  let query_protocol := "ipv" +:+ version_str protocol in
  vrf ← getattr (Device.vrfs (device self)) (query_vrf self);
  afi ← getattr vrf query_protocol;
  if String.eqb (transport self) "rest" then
    mret (PyList (query ++ [json_dumps [
      ("query_type", "traceroute");
      ("afi", afi_name afi);
      ("vrf", vrf_name afi);
      ("source", source_address afi);
      ("target", query_target self)]]))
  else if String.eqb (transport self) "scrape" then
    cmd ← device_commands (Device.commands (device self)) (cmd_type self)
            "traceroute";
    line ← format cmd [
      ("target", query_target self);
      ("source", source_address afi);
      ("vrf", vrf_name afi);
      ("afi", afi_name afi)];
    mret (PyList (query ++ [line]))
  else
    mret (PyList query).

(** [Construct.bgp_route] *)
Definition bgp_route (self : Construct) : M pyval :=
  let query : list string := [] in
  protocol ← ip_network_protocol (query_target self);
  let query_protocol := "ipv" +:+ version_str protocol in
  vrf ← getattr (Device.vrfs (device self)) (query_vrf self);
  afi ← getattr vrf query_protocol;
  if String.eqb (transport self) "rest" then
    mret (PyList (query ++ [json_dumps [
      ("query_type", "bgp_route");
      ("afi", afi_name afi);
      ("vrf", vrf_name afi);
      ("source", source_address afi);
      ("target", query_target self)]]))
  else if String.eqb (transport self) "scrape" then
    cmd ← device_commands (Device.commands (device self)) (cmd_type self)
            "bgp_route";
    line ← format cmd [
      ("target", query_target self);
      ("source", source_address afi);
      ("vrf", vrf_name afi);
      ("afi", afi_name afi)];
    mret (PyList (query ++ [line]))
  else
    mret (PyList query).

(** The attribute lookup [self.query_afi].  [__init__] sets [device],
    [query_data], [transport], [query_target], [query_vrf] and [cmd_type];
    the class defines [get_src], [device_commands], [get_cmd_type] and the
    five builders.  [query_afi] is none of these. *)
Definition self_query_afi {A} (self : Construct) : M A :=
  raise (AttributeError "query_afi").

(** [Construct.bgp_community] from [afi = getattr(vrf, ...)] on, given the
    value [query_afi] of [self.query_afi]. *)
Definition bgp_community_body (self : Construct) (vrf : gmap string Afi)
    (query_afi : string) : M pyval :=
  let query : list string := [] in
  afi ← getattr vrf query_afi;
  if String.eqb (transport self) "rest" then
    mret (PyList (query ++ [json_dumps [
      ("query_type", "bgp_community");
      ("afi", afi_name afi);
      ("vrf", vrf_name afi);
      ("source", source_address afi);
      ("target", query_target self)]]))
  else if String.eqb (transport self) "scrape" then
    cmd ← device_commands (Device.commands (device self)) (cmd_type self)
            "bgp_community";
    line ← format cmd [
      ("target", query_target self);
      ("source", source_address afi);
      ("vrf", vrf_name afi);
      ("afi", afi_name afi)];
    mret (PyList (query ++ [line]))
  else
    mret (PyList query).

(** [Construct.bgp_community] *)
Definition bgp_community (self : Construct) : M pyval :=
  vrf ← getattr (Device.vrfs (device self)) (query_vrf self);
  query_afi ← self_query_afi self;
  bgp_community_body self vrf query_afi.

(** [Construct.bgp_aspath] from the call of [query_afi] on, given the value
    [query_afi] of [self.query_afi]. *)
Definition bgp_aspath_body (self : Construct)
    (query_afi : string → string → M string) : M pyval :=
  afi ← query_afi (query_target self) (query_vrf self);
  source ← get_src (device self) afi;
  if String.eqb (transport self) "rest" then
    mret (PyStr (json_dumps [
      ("query_type", "bgp_aspath");
      ("afi", afi);
      ("vrf", query_vrf self);
      ("source", source);
      ("target", query_target self)]))
  else if String.eqb (transport self) "scrape" then
    cmd ← device_commands (Device.commands (device self)) afi "bgp_aspath";
    line ← format cmd [
      ("target", query_target self);
      ("source", source);
      ("vrf", query_vrf self)];
    mret (PyStr line)
  else
    mret PyNone.

(** [Construct.bgp_aspath] *)
Definition bgp_aspath (self : Construct) : M pyval :=
  query_afi ← self_query_afi self;
  bgp_aspath_body self query_afi.

End Construct.

Arguments self_query_afi {A} self.

(** ** The builders by query kind *)

Inductive query_kind := Ping | Traceroute | BgpRoute | BgpCommunity | BgpAspath.

(** The literal [query_type] tag of each builder. *)
Definition query_type (k : query_kind) : string :=
  match k with
  | Ping => "ping"
  | Traceroute => "traceroute"
  | BgpRoute => "bgp_route"
  | BgpCommunity => "bgp_community"
  | BgpAspath => "bgp_aspath"
  end.

(** The method of the class that carries the name of the kind. *)
Definition builder `{RT : Runtime} (commands : Catalog) (k : query_kind)
    : Construct → M pyval :=
  match k with
  | Ping => ping commands
  | Traceroute => traceroute commands
  | BgpRoute => bgp_route commands
  | BgpCommunity => bgp_community commands
  | BgpAspath => bgp_aspath commands
  end.

(** The call [getattr(Construct(device, query_data, transport), kind)()]. *)
Definition run `{RT : Runtime} (commands : Catalog) (k : query_kind)
    (device : Device.t) (query_data : gmap string string) (transport : string)
    : M pyval :=
  self ← __init__ device query_data transport;
  builder commands k self.

(** The kinds whose builder selects the AFI record by the protocol parsed
    from the target. *)
Definition resolves_by_target (k : query_kind) : bool :=
  match k with
  | Ping | Traceroute | BgpRoute => true
  | BgpCommunity | BgpAspath => false
  end.

(** The one builder of which the kinds are said to be instances: the text of
    [ping] with the tag as a parameter, which is used twice, as the value of
    "query_type" in the payload and as the last key of the catalog path. *)
Definition tagged_builder `{RT : Runtime} (commands : Catalog) (tag : string)
    (self : Construct) : M pyval :=
  protocol ← ip_network_protocol (query_target self);
  vrf ← getattr (Device.vrfs (device self)) (query_vrf self);
  afi ← getattr vrf ("ipv" +:+ version_str protocol);
  if String.eqb (transport self) "rest" then
    mret (PyList [json_dumps [
      ("query_type", tag);
      ("afi", afi_name afi);
      ("vrf", vrf_name afi);
      ("source", source_address afi);
      ("target", query_target self)]])
  else if String.eqb (transport self) "scrape" then
    cmd ← device_commands commands (Device.commands (device self))
            (cmd_type self) tag;
    line ← format cmd [
      ("target", query_target self);
      ("source", source_address afi);
      ("vrf", vrf_name afi);
      ("afi", afi_name afi)];
    mret (PyList [line])
  else
    mret (PyList []).

(** The template stored for a (platform, cmd_type, query_type) triple. *)
Definition catalog_entry (commands : Catalog)
    (platform cmd_type query_type : string) : option string :=
  p ← commands !! platform; q ← p !! cmd_type; q !! query_type.

(** The values an exception carries in its message. *)
Definition exn_names (e : exn) : list string :=
  match e with
  | ValueError what => [what]
  | AttributeError name => [name]
  | KeyError key => [key]
  | IndexError what => [what]
  end.

(** ** A runtime to evaluate requests with

    [basic_ip_version] recognises an IPv4 host written as four decimal octets
    and an IPv6 host written as eight groups of hexadecimal digits.
    [basic_format] replaces fields that are a plain keyword name and the
    two brace escapes, and rejects any other field syntax. *)

Definition is_digit (c : ascii) : bool :=
  let n := N_of_ascii c in (48 <=? n)%N && (n <=? 57)%N.

Definition is_hex_digit (c : ascii) : bool :=
  let n := N_of_ascii c in
  is_digit c || ((97 <=? n)%N && (n <=? 102)%N) || ((65 <=? n)%N && (n <=? 70)%N).

Fixpoint all_chars (p : ascii → bool) (s : string) : bool :=
  match s with
  | "" => true
  | String c s' => p c && all_chars p s'
  end.

Fixpoint decimal_value (acc : N) (s : string) : N :=
  match s with
  | "" => acc
  | String c s' => decimal_value (10 * acc + (N_of_ascii c - 48))%N s'
  end.

Definition is_octet (s : string) : bool :=
  match s with
  | "" => false
  | String c rest =>
      all_chars is_digit s && (String.length s <=? 3)%nat
      && (decimal_value 0 s <=? 255)%N
      && (negb (Ascii.eqb c "0") || String.eqb rest "")
  end.

Definition is_hextet (s : string) : bool :=
  all_chars is_hex_digit s && (1 <=? String.length s)%nat
  && (String.length s <=? 4)%nat.

Definition basic_ip_version (s : string) : option ip_version :=
  let quad := split "." s in
  let groups := split ":" s in
  if (length quad =? 4)%nat && forallb is_octet quad then Some IPv4
  else if (length groups =? 8)%nat && forallb is_hextet groups then Some IPv6
  else None.

Definition outcome_map {A B} (f : A → B) (o : outcome A) : outcome B :=
  match o with
  | Return a => Return (f a)
  | Raise e => Raise e
  end.

Fixpoint kw_lookup (kwargs : list (string * string)) (name : string)
    : option string :=
  match kwargs with
  | [] => None
  | (k, v) :: rest => if String.eqb k name then Some v else kw_lookup rest name
  end.

(** A field name that has been read up to its closing brace: a name made
    of digits, and the empty name, ask for a positional argument, and the
    call has none. *)
Definition render_field (kwargs : list (string * string)) (name : string)
    : outcome string :=
  if all_chars is_digit name then
    Raise (IndexError (if String.eqb name "" then "0" else name))
  else
    match kw_lookup kwargs name with
    | Some v => Return v
    | None => Raise (KeyError name)
    end.

Definition is_field_syntax (c : ascii) : bool :=
  existsb (Ascii.eqb c) ["!"; ":"; "."; "["]%char.

(** [field] is [None] in literal text and [Some name] inside a field whose
    name read so far is [name]. *)
Fixpoint basic_format_from (field : option string) (s : string)
    (kwargs : list (string * string)) : outcome string :=
  match field, s with
  | None, "" => Return ""
  | None, String "{" (String "{" rest) =>
      outcome_map (String "{") (basic_format_from None rest kwargs)
  | None, String "{" "" =>
      Raise (ValueError "Single '{' encountered in format string")
  | None, String "{" rest => basic_format_from (Some "") rest kwargs
  | None, String "}" (String "}" rest) =>
      outcome_map (String "}") (basic_format_from None rest kwargs)
  | None, String "}" _ =>
      Raise (ValueError "Single '}' encountered in format string")
  | None, String c rest =>
      outcome_map (String c) (basic_format_from None rest kwargs)
  | Some _, "" => Raise (ValueError "expected '}' before end of string")
  | Some name, String "}" rest =>
      match render_field kwargs name with
      | Return v => outcome_map (String.append v) (basic_format_from None rest kwargs)
      | Raise e => Raise e
      end
  | Some name, String "{" _ =>
      Raise (ValueError "unexpected '{' in field name")
  | Some name, String c rest =>
      if is_field_syntax c then Raise (ValueError "field syntax not covered")
      else basic_format_from (Some (name +:+ String c "")) rest kwargs
  end.

Definition basic_format (template : string) (kwargs : list (string * string))
    : outcome string :=
  basic_format_from None template kwargs.

Definition basic_runtime : Runtime :=
  {| ip_network_version := basic_ip_version; str_format := basic_format |}.

(** ** A lab setup: one device, one catalog, one request *)

Definition lab_afi : Afi :=
  {| afi_name := "ipv4"; vrf_name := "default";
     source_address := "203.0.113.1" |}.

Definition lab_device : Device.t :=
  {| Device.vrfs := {[ "default" := {[ "ipv4" := lab_afi ]} ]};
     Device.commands := "cisco_ios";
     Device.attrs := {[ "src_addr_ipv4" := IPv4Address 3405803777 ]} |}.

Definition lab_catalog : Catalog :=
  {[ "cisco_ios" :=
       {[ "ipv4_default" :=
            {[ "ping" := "ping {target} source {source}";
               "traceroute" := "traceroute {target} source {source}";
               "bgp_route" := "show bgp ipv4 unicast {target}";
               "bgp_community" := "show bgp ipv4 unicast community {target}";
               "bgp_aspath" := "show bgp ipv4 unicast regexp {target}" ]};
          "ipv4" :=
            {[ "bgp_aspath" := "show bgp ipv4 unicast regexp {target}" ]} ]} ]}.

Definition lab_request (target vrf : string) : gmap string string :=
  {[ "query_target" := target; "query_vrf" := vrf ]}.

(** The object [Construct(lab_device, lab_request(target, vrf), transport)]
    for a target of version [v]. *)
Definition lab_self (v : ip_version) (target vrf transport : string)
    : Construct :=
  {| device := lab_device; query_data := lab_request target vrf;
     transport := transport; query_target := target; query_vrf := vrf;
     cmd_type := "ipv" +:+ version_str v +:+
       (if bool_decide (vrf ≠ "" ∧ vrf ≠ "default")
        then "_vrf" else "_default") |}.

(** * Properties *)

Ltac run :=
  unfold mbind, M_bind, mret, M_ret, raise, lift, tell, getattr, getitem; simpl.

Section Resolver.

Context `{RT : Runtime}.

Lemma ip_network_protocol_ok (address : string) (v : ip_version) :
  ip_network_version address = Some v →
  ip_network_protocol address = mret v.
Proof. unfold ip_network_protocol. by intros ->. Qed.

Lemma ip_network_protocol_fail (address : string) :
  ip_network_version address = None →
  ip_network_protocol address = raise (ValueError address).
Proof. unfold ip_network_protocol. by intros ->. Qed.

Lemma get_cmd_type_resolved (query_target query_vrf : string)
    (v : ip_version) :
  ip_network_version query_target = Some v →
  get_cmd_type query_target query_vrf =
    mret ("ipv" +:+ version_str v +:+
          (if bool_decide (query_vrf ≠ "" ∧ query_vrf ≠ "default")
           then "_vrf" else "_default")).
Proof.
  intros Hv. unfold get_cmd_type.
  rewrite (ip_network_protocol_ok _ _ Hv). run.
  unfold truthy.
  case_bool_decide as Hvrf.
  - destruct Hvrf as [Hne Hnd].
    apply String.eqb_neq in Hne, Hnd. by rewrite Hne, Hnd.
  - destruct (String.eqb_spec query_vrf "") as [->|Hne]; [done|].
    destruct (String.eqb_spec query_vrf "default") as [->|Hnd]; [done|].
    tauto.
Qed.

(** C1. When the target parses with version [v], [get_cmd_type] returns
    "ipv{v}_vrf" if the VRF name is non-empty and is not "default", and
    "ipv{v}_default" otherwise, the empty VRF name included. *)
Theorem get_cmd_type_spec (query_target query_vrf : string) (v : ip_version) :
  ip_network_version query_target = Some v →
  get_cmd_type query_target query_vrf =
    mret ("ipv" +:+ version_str v +:+
          (if bool_decide (query_vrf ≠ "" ∧ query_vrf ≠ "default")
           then "_vrf" else "_default")).
Proof. apply get_cmd_type_resolved. Qed.

End Resolver.

Lemma get_cmd_type_spec_witness :
  basic_ip_version "2001:db8:0:0:0:0:0:1" = Some IPv6 ∧
  @get_cmd_type basic_runtime "2001:db8:0:0:0:0:0:1" "CUSTOMER-A" =
    mret "ipv6_vrf".
Proof.
  split; [reflexivity |].
  exact (@get_cmd_type_spec basic_runtime "2001:db8:0:0:0:0:0:1" "CUSTOMER-A"
           IPv6 eq_refl).
Defined.

(** ** Splitting a dotted path and walking it *)

Section Paths.

Lemma split_nonempty (sep : ascii) (s : string) : split sep s ≠ [].
Proof.
  destruct s as [|c s']; simpl; [done|].
  destruct (Ascii.eqb c sep); [done|].
  by destruct (split sep s').
Qed.

Lemma split_app (sep : ascii) (a b : string) :
  split sep (a +:+ String sep b) = split sep a ++ split sep b.
Proof.
  induction a as [|c a IH]; simpl.
  - by rewrite Ascii.eqb_refl.
  - destruct (Ascii.eqb c sep); [by rewrite IH|].
    rewrite IH. pose proof (split_nonempty sep a) as Hne.
    by destruct (split sep a).
Qed.

Lemma split_no_sep (sep : ascii) (s : string) :
  mem_char sep s = false → split sep s = [s].
Proof.
  induction s as [|c s IH]; simpl; [done|].
  intros [Hc Hs]%orb_false_elim. rewrite Hc, (IH Hs). done.
Qed.



(** The path [nos.afi.query_type] splits into the parts of its three names. *)
Lemma split_cmd_path (nos afi query_type : string) :
  split "." (nos +:+ "." +:+ afi +:+ "." +:+ query_type) =
    split "." nos ++ split "." afi ++ split "." query_type.
Proof.
  change (nos +:+ "." +:+ afi +:+ "." +:+ query_type)
    with (nos +:+ String "." (afi +:+ String "." query_type)).
  by rewrite !split_app.
Qed.





Lemma first_missing_elem (names : list string) (o : node) (name : string) :
  first_missing names o = Some name → name ∈ names.
Proof.
  revert o. induction names as [|n rest IH]; intros o; simpl; [done|].
  destruct (node_getattr o n); [|intros [= ->]; left].
  intros ?%IH. by right.
Qed.

(** Walking the three names of a triple is the lookup of its entry. *)
Lemma walk_triple (commands : Catalog) (platform cmd_type query_type : string) :
  walk [platform; cmd_type; query_type] (NCommands commands) =
    match catalog_entry commands platform cmd_type query_type with
    | Some t => Return (NTemplate t)
    | None =>
        Raise (AttributeError
          (match commands !! platform with
           | None => platform
           | Some p => match p !! cmd_type with
                       | None => cmd_type
                       | Some _ => query_type
                       end
           end))
    end.
Proof.
  unfold catalog_entry. simpl. unfold lookup_attr.
  destruct (commands !! platform) as [p|]; simpl; [|done].
  unfold lookup_attr.
  destruct (p !! cmd_type) as [q|]; simpl; [|done].
  unfold lookup_attr.
  by destruct (q !! query_type).
Qed.

End Paths.

(** ** Laws of the monad *)

Section Monad.

Context {A B : Type}.

Lemma bind_ret (a : A) (f : A → M B) : mret a ≫= f = f a.
Proof. unfold mbind, M_bind, mret, M_ret. by destruct (f a). Qed.

Lemma bind_raise (e : exn) (f : A → M B) : raise e ≫= f = raise e.
Proof. done. Qed.

Lemma bind_lift_return (a : A) (f : A → M B) : lift (Return a) ≫= f = f a.
Proof. apply bind_ret. Qed.

Lemma bind_lift_raise (e : exn) (f : A → M B) :
  lift (Raise e) ≫= f = raise e.
Proof. done. Qed.

Lemma bind_trace (t : list event) (a : A) (f : A → M B) :
  (t, Return a) ≫= f = (t ++ trace (f a), result (f a)).
Proof. unfold mbind, M_bind, trace, result. by destruct (f a). Qed.

Lemma bind_return_inv (m : M A) (f : A → M B) (t : list event) (b : B) :
  m ≫= f = (t, Return b) →
  ∃ t1 a t2, m = (t1, Return a) ∧ f a = (t2, Return b) ∧ t = t1 ++ t2.
Proof.
  destruct m as [t1 [a|e]]; [|done].
  rewrite bind_trace. intros [= <- Hres].
  exists t1, a, (trace (f a)). split; [done|]. split; [|done].
  unfold trace, result in *. destruct (f a) as [t2 r]. simpl in *. by subst.
Qed.

Lemma getattr_some (obj : gmap string A) (name : string) (v : A) :
  obj !! name = Some v → getattr obj name = mret v.
Proof. unfold getattr. by intros ->. Qed.

Lemma getattr_none (obj : gmap string A) (name : string) :
  obj !! name = None → getattr obj name = raise (AttributeError name).
Proof. unfold getattr. by intros ->. Qed.

Lemma getitem_some (d : gmap string A) (key : string) (v : A) :
  d !! key = Some v → getitem d key = mret v.
Proof. unfold getitem. by intros ->. Qed.

End Monad.

(** ** Template resolution *)

Section Templates.

Variable commands : Catalog.

Lemma device_commands_walk (nos afi query_type : string) :
  device_commands commands nos afi query_type =
    ([CatalogAccess (nos +:+ "." +:+ afi +:+ "." +:+ query_type)],
     walk (split "." nos ++ split "." afi ++ split "." query_type)
       (NCommands commands)).
Proof.
  unfold device_commands, attrgetter. rewrite split_cmd_path.
  unfold tell, lift, mbind, M_bind. done.
Qed.

(** A triple of names without dots that has an entry resolves to it. *)
Lemma device_commands_found (nos afi query_type t : string) :
  mem_char "." nos = false → mem_char "." afi = false →
  mem_char "." query_type = false →
  catalog_entry commands nos afi query_type = Some t →
  device_commands commands nos afi query_type =
    ([CatalogAccess (nos +:+ "." +:+ afi +:+ "." +:+ query_type)],
     Return (NTemplate t)).
Proof.
  intros Hn Ha Hq Hentry. rewrite device_commands_walk.
  rewrite !split_no_sep by done. simpl app.
  by rewrite walk_triple, Hentry.
Qed.


Lemma plain_name_no_dot (s : string) :
  plain_name s = true → mem_char "." s = false.
Proof.
  unfold plain_name. intros [Hdot _]%andb_prop.
  by apply negb_true_iff in Hdot.
Qed.

(** C6 (amended). For a platform, a cmd_type and a query_type that can
    only be data attributes (no dot, no leading underscore), when the catalog
    has no entry for the triple, [device_commands] reads the catalog once and
    raises [AttributeError]; the error names the outermost level that is
    missing, the platform, else the cmd_type, else the query_type, and not
    the triple.  No template is returned, neither a default one nor an
    empty one. *)
Theorem device_commands_missing (nos afi query_type : string) :
  plain_name nos = true → plain_name afi = true →
  plain_name query_type = true →
  catalog_entry commands nos afi query_type = None →
  device_commands commands nos afi query_type =
    ([CatalogAccess (nos +:+ "." +:+ afi +:+ "." +:+ query_type)],
     Raise (AttributeError
       (match commands !! nos with
        | None => nos
        | Some p => match p !! afi with
                    | None => afi
                    | Some _ => query_type
                    end
        end))).
Proof.
  intros Hn%plain_name_no_dot Ha%plain_name_no_dot Hq%plain_name_no_dot Hentry.
  rewrite device_commands_walk.
  rewrite !split_no_sep by done. simpl app.
  by rewrite walk_triple, Hentry.
Qed.

End Templates.

Lemma device_commands_missing_witness :
  device_commands lab_catalog "cisco_ios" "ipv6_vrf" "traceroute" =
    ([CatalogAccess "cisco_ios.ipv6_vrf.traceroute"],
     Raise (AttributeError "ipv6_vrf")) ∧
  device_commands lab_catalog "cisco_ios" "ipv4" "ping" =
    ([CatalogAccess "cisco_ios.ipv4.ping"], Raise (AttributeError "ping")).
Proof.
  split.
  - exact (device_commands_missing lab_catalog "cisco_ios" "ipv6_vrf"
             "traceroute" eq_refl eq_refl eq_refl eq_refl).
  - exact (device_commands_missing lab_catalog "cisco_ios" "ipv4" "ping"
             eq_refl eq_refl eq_refl eq_refl).
Defined.

(** C6, as stated, fails: with no platform "juniper" in the catalog, the
    error raised for ("juniper", "ipv4_default", "ping") carries the name
    "juniper" alone, not the three names of the triple. *)
Lemma device_commands_error_names_one_component :
  ¬ ∃ e,
      result (device_commands lab_catalog "juniper" "ipv4_default" "ping") =
        Raise e ∧
      "juniper" ∈ exn_names e ∧ "ipv4_default" ∈ exn_names e ∧
      "ping" ∈ exn_names e.
Proof.
  intros (e & He & _ & _ & Hping).
  vm_compute in He. injection He as <-. simpl in Hping.
  by apply list_elem_of_singleton in Hping.
Qed.

(** ** Reading back what [json_dumps] writes *)

Section Json.

Lemma append_cons (c : ascii) (a b : string) :
  String c a +:+ b = String c (a +:+ b).
Proof. done. Qed.

Lemma append_assoc (a b c : string) : (a +:+ b) +:+ c = a +:+ (b +:+ c).
Proof.
  induction a as [|x a IH]; [done|].
  by rewrite !append_cons, IH.
Qed.

Lemma length_append (a b : string) :
  String.length (a +:+ b) = (String.length a + String.length b)%nat.
Proof.
  induction a as [|x a IH]; [done|].
  rewrite append_cons. simpl. by rewrite IH.
Qed.

(** One escaped character is read back as the character. *)
Lemma json_read_escape_char (c : ascii) (rest : string) :
  json_read_string (json_escape_char c +:+ rest) =
    match json_read_string rest with
    | Some (d, r) => Some (String c d, r)
    | None => None
    end.
Proof.
  destruct c as [[] [] [] [] [] [] [] []]; reflexivity.
Qed.

Lemma json_read_escape (s tail : string) :
  json_read_string (json_escape s +:+ String dquote tail) = Some (s, tail).
Proof.
  induction s as [|c s IH]; [done|].
  change (json_escape (String c s))
    with (json_escape_char c +:+ json_escape s).
  by rewrite append_assoc, json_read_escape_char, IH.
Qed.

Lemma strip_prefix_append (p s : string) : strip_prefix p (p +:+ s) = Some s.
Proof.
  induction p as [|a p IH]; [done|].
  rewrite append_cons. simpl. by rewrite Ascii.eqb_refl.
Qed.

Lemma json_item_append (k v tail : string) :
  json_item (k, v) +:+ tail =
    String dquote "" +:+ json_escape k +:+
      String dquote ((": " +:+ String dquote "") +:+
        json_escape v +:+ String dquote tail).
Proof.
  unfold json_item, json_string. cbn [fst snd].
  repeat (rewrite append_cons || rewrite append_assoc). done.
Qed.

Lemma json_read_item_append (kv : string * string) (tail : string) :
  json_read_item (json_item kv +:+ tail) = Some (kv, tail).
Proof.
  destruct kv as [k v]. unfold json_read_item.
  rewrite json_item_append, strip_prefix_append. cbn [mbind option_bind].
  rewrite json_read_escape. cbn [mbind option_bind].
  rewrite strip_prefix_append. cbn [mbind option_bind].
  by rewrite json_read_escape.
Qed.

Lemma json_item_length (kv : string * string) :
  (1 ≤ String.length (json_item kv))%nat.
Proof.
  destruct kv as [k v]. unfold json_item, json_string. cbn [fst snd].
  rewrite append_cons. simpl. lia.
Qed.

Lemma join_items_length (d : list (string * string)) :
  (length d ≤ String.length (join ", " (map json_item d)))%nat.
Proof.
  induction d as [|kv d IH]; [done|].
  pose proof (json_item_length kv).
  destruct d as [|kv' d]; [simpl; lia|].
  change (join ", " (map json_item (kv :: kv' :: d)))
    with (json_item kv +:+ ", " +:+ join ", " (map json_item (kv' :: d))).
  rewrite !length_append. simpl length in *. lia.
Qed.

Lemma json_read_items_join (d : list (string * string)) :
  ∀ (kv : string * string) (fuel : nat),
    (length d < fuel)%nat →
    json_read_items fuel (join ", " (map json_item (kv :: d)) +:+ "}") =
      Some (kv :: d).
Proof.
  induction d as [|kv' d IH]; intros kv [|fuel] Hfuel; simpl in Hfuel; try lia.
  - simpl join. cbn [json_read_items].
    by rewrite json_read_item_append.
  - change (join ", " (map json_item (kv :: kv' :: d)))
      with (json_item kv +:+ ", " +:+ join ", " (map json_item (kv' :: d))).
    cbn [json_read_items].
    rewrite !append_assoc, json_read_item_append. cbn [mbind option_bind].
    rewrite !append_cons. cbn [String.eqb Ascii.eqb Bool.eqb].
    change (String "," (String " " ("" +:+
              join ", " (map json_item (kv' :: d)) +:+ "}")))
      with (", " +:+ join ", " (map json_item (kv' :: d)) +:+ "}").
    rewrite strip_prefix_append. cbn [mbind option_bind].
    rewrite IH by lia. done.
Qed.

(** What [json_dumps] writes is a JSON object that reads back as the very
    keys and values, in their order. *)
Lemma json_loads_dumps (d : list (string * string)) :
  json_loads (json_dumps d) = Some d.
Proof.
  unfold json_loads, json_dumps.
  rewrite (strip_prefix_append "{"). cbn [mbind option_bind].
  destruct d as [|kv d]; [done|].
  assert (String.eqb (join ", " (map json_item (kv :: d)) +:+ "}") "}" = false)
    as ->.
  { destruct d as [|kv' d]; destruct kv as [k v];
      cbn [map join]; unfold json_item at 1, json_string at 1; cbn [fst];
      by rewrite !append_cons. }
  apply json_read_items_join.
  change ("{" +:+ join ", " (map json_item (kv :: d)) +:+ "}")
    with (String "{" (join ", " (map json_item (kv :: d)) +:+ "}")).
  pose proof (join_items_length (kv :: d)) as Hlen.
  cbn [String.length]. rewrite length_append. simpl length in *. lia.
Qed.

End Json.

(** ** The builders *)

Section Builders.

Context `{RT : Runtime}.
Variable commands : Catalog.

(** [ping], [traceroute] and [bgp_route] are one text up to the tag. *)
Lemma builder_tagged (k : query_kind) (self : Construct) :
  resolves_by_target k = true →
  builder commands k self = tagged_builder commands (query_type k) self.
Proof. by destruct k. Qed.

(** Once the target, the VRF and the AFI record have been resolved, what is
    left of a builder is the choice of the transport. *)
Lemma tagged_builder_resolved (tag : string) (self : Construct)
    (v : ip_version) (vrf : gmap string Afi) (afi : Afi) :
  ip_network_version (query_target self) = Some v →
  Device.vrfs (device self) !! query_vrf self = Some vrf →
  vrf !! ("ipv" +:+ version_str v) = Some afi →
  tagged_builder commands tag self =
    if String.eqb (transport self) "rest" then
      mret (PyList [json_dumps [
        ("query_type", tag);
        ("afi", afi_name afi);
        ("vrf", vrf_name afi);
        ("source", source_address afi);
        ("target", query_target self)]])
    else if String.eqb (transport self) "scrape" then
      cmd ← device_commands commands (Device.commands (device self))
              (cmd_type self) tag;
      line ← format cmd [
        ("target", query_target self);
        ("source", source_address afi);
        ("vrf", vrf_name afi);
        ("afi", afi_name afi)];
      mret (PyList [line])
    else
      mret (PyList []).
Proof.
  intros Hv Hvrf Hafi. unfold tagged_builder.
  rewrite (ip_network_protocol_ok _ _ Hv), bind_ret.
  rewrite (getattr_some _ _ _ Hvrf), bind_ret.
  by rewrite (getattr_some _ _ _ Hafi), bind_ret.
Qed.

(** A resolved scrape request of ping, traceroute or bgp_route: one
    catalog access, one formatted line, in a list. *)
Lemma builder_scrape (k : query_kind) (self : Construct) (v : ip_version)
    (vrf : gmap string Afi) (afi : Afi) (tmpl line : string) :
  transport self = "scrape" →
  resolves_by_target k = true →
  ip_network_version (query_target self) = Some v →
  Device.vrfs (device self) !! query_vrf self = Some vrf →
  vrf !! ("ipv" +:+ version_str v) = Some afi →
  result (device_commands commands (Device.commands (device self))
            (cmd_type self) (query_type k)) = Return (NTemplate tmpl) →
  str_format tmpl [
    ("target", query_target self);
    ("source", source_address afi);
    ("vrf", vrf_name afi);
    ("afi", afi_name afi)] = Return line →
  builder commands k self =
    ([CatalogAccess (Device.commands (device self) +:+ "." +:+
                     cmd_type self +:+ "." +:+ query_type k)],
     Return (PyList [line])).
Proof.
  intros Htr Hk Hv Hvrf Hafi Hcmd Hfmt.
  rewrite (builder_tagged _ _ Hk).
  rewrite (tagged_builder_resolved _ _ _ _ _ Hv Hvrf Hafi), Htr.
  rewrite device_commands_walk in Hcmd |- *.
  unfold result in Hcmd. cbn [snd] in Hcmd.
  rewrite Hcmd, bind_trace. simpl. unfold lift.
  by rewrite Hfmt.
Qed.

(** The text of [bgp_aspath] after [self.query_afi] has been found: the
    label [afi] that [query_afi] returns names the device attribute
    "src_addr_{afi}", whose exploded form is the source. *)
Lemma bgp_aspath_body_resolved (self : Construct)
    (query_afi : string → string → M string) (t : list event)
    (afi : string) (src : ip_address) :
  query_afi (query_target self) (query_vrf self) = (t, Return afi) →
  Device.attrs (device self) !! ("src_addr_" +:+ afi) = Some src →
  bgp_aspath_body commands self query_afi =
    (t, Return tt) ≫= λ _,
      if String.eqb (transport self) "rest" then
        mret (PyStr (json_dumps [
          ("query_type", "bgp_aspath");
          ("afi", afi);
          ("vrf", query_vrf self);
          ("source", exploded src);
          ("target", query_target self)]))
      else if String.eqb (transport self) "scrape" then
        cmd ← device_commands commands (Device.commands (device self)) afi
                "bgp_aspath";
        line ← format cmd [
          ("target", query_target self);
          ("source", exploded src);
          ("vrf", query_vrf self)];
        mret (PyStr line)
      else
        mret PyNone.
Proof.
  intros Hq Hsrc. unfold bgp_aspath_body, get_src.
  rewrite Hq, !bind_trace.
  by rewrite (getattr_some _ _ _ Hsrc), !bind_ret.
Qed.

Lemma bgp_aspath_body_scrape (self : Construct)
    (query_afi : string → string → M string) (t : list event)
    (afi : string) (src : ip_address) (tmpl line : string) :
  transport self = "scrape" →
  query_afi (query_target self) (query_vrf self) = (t, Return afi) →
  Device.attrs (device self) !! ("src_addr_" +:+ afi) = Some src →
  result (device_commands commands (Device.commands (device self))
            afi "bgp_aspath") = Return (NTemplate tmpl) →
  str_format tmpl [
    ("target", query_target self);
    ("source", exploded src);
    ("vrf", query_vrf self)] = Return line →
  bgp_aspath_body commands self query_afi =
    (t ++ [CatalogAccess (Device.commands (device self) +:+ "." +:+
                          afi +:+ ".bgp_aspath")],
     Return (PyStr line)).
Proof.
  intros Htr Hq Hsrc Hcmd Hfmt.
  rewrite (bgp_aspath_body_resolved _ _ _ _ _ Hq Hsrc), Htr, bind_trace.
  rewrite device_commands_walk in Hcmd |- *.
  unfold result in Hcmd. cbn [snd] in Hcmd.
  rewrite Hcmd, bind_trace. simpl. unfold lift.
  by rewrite Hfmt.
Qed.

(** Whatever ping, traceroute or bgp_route returns under "scrape" is a
    list of one string. *)
Lemma builder_scrape_shape (k : query_kind) (self : Construct)
    (t : list event) (val : pyval) :
  transport self = "scrape" →
  resolves_by_target k = true →
  builder commands k self = (t, Return val) →
  ∃ line, val = PyList [line].
Proof.
  intros Htr Hk. rewrite (builder_tagged _ _ Hk). unfold tagged_builder.
  intros (t1 & v & t2 & _ & Hrest & _)%bind_return_inv.
  apply bind_return_inv in Hrest as (t3 & vrf & t4 & _ & Hrest & _).
  apply bind_return_inv in Hrest as (t5 & afi & t6 & _ & Hrest & _).
  rewrite Htr in Hrest.
  change (String.eqb "scrape" "rest") with false in Hrest.
  change (String.eqb "scrape" "scrape") with true in Hrest.
  cbv iota in Hrest.
  apply bind_return_inv in Hrest as (t7 & cmd & t8 & _ & Hrest & _).
  apply bind_return_inv in Hrest as (t9 & line & t10 & _ & Hrest & _).
  injection Hrest as _ <-. by exists line.
Qed.

(** [self.query_afi] is looked up first in [bgp_aspath], and it is not
    there. *)
Lemma bgp_aspath_raises (self : Construct) :
  bgp_aspath commands self = ([], Raise (AttributeError "query_afi")).
Proof. done. Qed.

(** [bgp_community] fetches the VRF and then fails on [self.query_afi]. *)
Lemma bgp_community_raises (self : Construct) :
  bgp_community commands self =
    ([], Raise (AttributeError
                  (match Device.vrfs (device self) !! query_vrf self with
                   | Some _ => "query_afi"
                   | None => query_vrf self
                   end))).
Proof.
  unfold bgp_community, getattr.
  by destruct (Device.vrfs (device self) !! query_vrf self).
Qed.

(** C2 (defect of the code). With transport "scrape", whatever a builder
    returns is a list of exactly one string, never a bare string, and ping,
    traceroute and bgp_route do return it, the formatted command, once the
    target, the VRF, the AFI record and the template resolve and the template
    formats.  bgp_community and bgp_aspath return nothing: on a device that
    has the VRF, either raises [AttributeError] for "query_afi", whatever
    the catalog holds. *)
Theorem scrape_one_command_or_slip (self : Construct) :
  transport self = "scrape" →
  (∀ k t val,
     builder commands k self = (t, Return val) →
     ∃ line, val = PyList [line]) ∧
  (∀ k v vrf afi tmpl line,
     resolves_by_target k = true →
     ip_network_version (query_target self) = Some v →
     Device.vrfs (device self) !! query_vrf self = Some vrf →
     vrf !! ("ipv" +:+ version_str v) = Some afi →
     result (device_commands commands (Device.commands (device self))
               (cmd_type self) (query_type k)) = Return (NTemplate tmpl) →
     str_format tmpl [
       ("target", query_target self);
       ("source", source_address afi);
       ("vrf", vrf_name afi);
       ("afi", afi_name afi)] = Return line →
     builder commands k self =
       ([CatalogAccess (Device.commands (device self) +:+ "." +:+
                        cmd_type self +:+ "." +:+ query_type k)],
        Return (PyList [line]))) ∧
  (∀ vrf,
     Device.vrfs (device self) !! query_vrf self = Some vrf →
     builder commands BgpCommunity self =
       ([], Raise (AttributeError "query_afi"))) ∧
  builder commands BgpAspath self = ([], Raise (AttributeError "query_afi")).
Proof.
  intros Htr. repeat split.
  - intros k t val. destruct (resolves_by_target k) eqn:Hk.
    + by apply builder_scrape_shape.
    + destruct k; try discriminate Hk; unfold builder.
      * by rewrite bgp_community_raises.
      * by rewrite bgp_aspath_raises.
  - intros k v vrf afi tmpl line. by apply builder_scrape.
  - intros vrf Hvrf. unfold builder. by rewrite bgp_community_raises, Hvrf.
Qed.

(** C3 (amended). For ping, traceroute and bgp_route a transport that is
    neither "rest" nor "scrape" is no error: once the target, the VRF and
    the AFI record resolve, the builder returns the empty list, and it does
    not read the catalog. *)
Theorem other_transport_returns_empty (k : query_kind) (self : Construct)
    (v : ip_version) (vrf : gmap string Afi) (afi : Afi) :
  transport self ≠ "rest" → transport self ≠ "scrape" →
  resolves_by_target k = true →
  ip_network_version (query_target self) = Some v →
  Device.vrfs (device self) !! query_vrf self = Some vrf →
  vrf !! ("ipv" +:+ version_str v) = Some afi →
  builder commands k self = ([], Return (PyList [])).
Proof.
  intros Hrest%String.eqb_neq Hscrape%String.eqb_neq Hk Hv Hvrf Hafi.
  rewrite (builder_tagged _ _ Hk).
  rewrite (tagged_builder_resolved _ _ _ _ _ Hv Hvrf Hafi).
  by rewrite Hrest, Hscrape.
Qed.

(** The shape [ping], [traceroute] and [bgp_route] give the payload. *)
Lemma rest_payload (k : query_kind) (self : Construct)
    (v : ip_version) (vrf : gmap string Afi) (afi : Afi) :
  transport self = "rest" →
  resolves_by_target k = true →
  ip_network_version (query_target self) = Some v →
  Device.vrfs (device self) !! query_vrf self = Some vrf →
  vrf !! ("ipv" +:+ version_str v) = Some afi →
  builder commands k self =
    ([], Return (PyList [json_dumps [
       ("query_type", query_type k);
       ("afi", afi_name afi);
       ("vrf", vrf_name afi);
       ("source", source_address afi);
       ("target", query_target self)]])).
Proof.
  intros Htr Hk Hv Hvrf Hafi.
  rewrite (builder_tagged _ _ Hk).
  by rewrite (tagged_builder_resolved _ _ _ _ _ Hv Hvrf Hafi), Htr.
Qed.

(** C7 (defect of the code). Let the target parse with version [v].
    ping, traceroute and bgp_route do as said: for a VRF name that can only
    be a data attribute and is not on the device they raise
    [AttributeError] for that name, and for a VRF that is there without a
    record for "ipv{v}" they raise it for "ipv{v}", in both cases with no
    catalog access.  bgp_community does so for the missing VRF only: once
    the VRF is found it raises for "query_afi", with or without the record.
    bgp_aspath raises for "query_afi" on every device: its failure tells
    nothing about the VRF. *)
Theorem vrf_or_afi_missing (self : Construct) (v : ip_version) :
  ip_network_version (query_target self) = Some v →
  (∀ k,
     resolves_by_target k = true ∨ k = BgpCommunity →
     plain_name (query_vrf self) = true →
     Device.vrfs (device self) !! query_vrf self = None →
     builder commands k self =
       ([], Raise (AttributeError (query_vrf self)))) ∧
  (∀ k vrf,
     resolves_by_target k = true →
     Device.vrfs (device self) !! query_vrf self = Some vrf →
     vrf !! ("ipv" +:+ version_str v) = None →
     builder commands k self =
       ([], Raise (AttributeError ("ipv" +:+ version_str v)))) ∧
  (∀ vrf,
     Device.vrfs (device self) !! query_vrf self = Some vrf →
     builder commands BgpCommunity self =
       ([], Raise (AttributeError "query_afi"))) ∧
  builder commands BgpAspath self = ([], Raise (AttributeError "query_afi")).
Proof.
  intros Hv. repeat split.
  - intros k [Hk| ->] _ Hvrf.
    + rewrite (builder_tagged _ _ Hk). unfold tagged_builder.
      rewrite (ip_network_protocol_ok _ _ Hv), bind_ret.
      by rewrite (getattr_none _ _ Hvrf).
    + unfold builder. by rewrite bgp_community_raises, Hvrf.
  - intros k vrf Hk Hvrf Hafi.
    rewrite (builder_tagged _ _ Hk). unfold tagged_builder.
    rewrite (ip_network_protocol_ok _ _ Hv), bind_ret.
    rewrite (getattr_some _ _ _ Hvrf), bind_ret.
    by rewrite (getattr_none _ _ Hafi).
  - intros vrf Hvrf. unfold builder. by rewrite bgp_community_raises, Hvrf.
Qed.

(** What [__init__] builds from a request whose target parses. *)
Lemma init_ok (device : Device.t) (query_data : gmap string string)
    (transport target vrf : string) (v : ip_version) :
  query_data !! "query_target" = Some target →
  query_data !! "query_vrf" = Some vrf →
  ip_network_version target = Some v →
  __init__ device query_data transport =
    mret {| device := device; query_data := query_data;
            transport := transport; query_target := target;
            query_vrf := vrf;
            cmd_type := "ipv" +:+ version_str v +:+
              (if bool_decide (vrf ≠ "" ∧ vrf ≠ "default")
               then "_vrf" else "_default") |}.
Proof.
  intros Ht Hq Hv. unfold __init__.
  rewrite (getitem_some _ _ _ Ht), bind_ret.
  rewrite (getitem_some _ _ _ Hq), bind_ret.
  by rewrite (get_cmd_type_resolved _ vrf _ Hv), bind_ret.
Qed.

(** C8. When the target of a request does not parse, [__init__] raises
    [ValueError] for that target.  No object is built, so whichever builder
    the caller meant to run is not entered, and the catalog is not read. *)
Theorem init_invalid_target (device : Device.t)
    (query_data : gmap string string) (transport target vrf : string) :
  query_data !! "query_target" = Some target →
  query_data !! "query_vrf" = Some vrf →
  ip_network_version target = None →
  __init__ device query_data transport = ([], Raise (ValueError target)) ∧
  ∀ k, run commands k device query_data transport =
         ([], Raise (ValueError target)).
Proof.
  intros Ht Hq Hv.
  assert (__init__ device query_data transport =
            ([], Raise (ValueError target))) as Hinit.
  { unfold __init__.
    rewrite (getitem_some _ _ _ Ht), bind_ret.
    rewrite (getitem_some _ _ _ Hq), bind_ret.
    unfold get_cmd_type. by rewrite (ip_network_protocol_fail _ Hv). }
  split; [done|]. intros k. unfold run. by rewrite Hinit.
Qed.

(** C5 (amended). With transport "rest", for ping, traceroute and
    bgp_route, once the target, the VRF and the AFI record resolve, the
    result is a list holding exactly one string, and the catalog is not
    read.  The string is a JSON object: it reads back as the keys
    query_type, afi, vrf, source and target, in this order, each with a
    string value, namely the tag of the builder, the three fields of the AFI
    record and the target. *)
Theorem rest_returns_payload_list (k : query_kind) (self : Construct)
    (v : ip_version) (vrf : gmap string Afi) (afi : Afi) :
  transport self = "rest" →
  resolves_by_target k = true →
  ip_network_version (query_target self) = Some v →
  Device.vrfs (device self) !! query_vrf self = Some vrf →
  vrf !! ("ipv" +:+ version_str v) = Some afi →
  ∃ payload,
    builder commands k self = ([], Return (PyList [payload])) ∧
    json_loads payload = Some [
      ("query_type", query_type k);
      ("afi", afi_name afi);
      ("vrf", vrf_name afi);
      ("source", source_address afi);
      ("target", query_target self)].
Proof.
  intros Htr Hk Hv Hvrf Hafi. eexists. split.
  - by apply (rest_payload k self v vrf afi).
  - apply json_loads_dumps.
Qed.

(** The payload of [bgp_aspath], were [self.query_afi] found. *)
Lemma bgp_aspath_body_rest (self : Construct)
    (query_afi : string → string → M string) (t : list event)
    (afi : string) (src : ip_address) :
  transport self = "rest" →
  query_afi (query_target self) (query_vrf self) = (t, Return afi) →
  Device.attrs (device self) !! ("src_addr_" +:+ afi) = Some src →
  bgp_aspath_body commands self query_afi =
    (t, Return (PyStr (json_dumps [
       ("query_type", "bgp_aspath");
       ("afi", afi);
       ("vrf", query_vrf self);
       ("source", exploded src);
       ("target", query_target self)]))).
Proof.
  intros Htr Hq Hsrc.
  rewrite (bgp_aspath_body_resolved _ _ _ _ _ Hq Hsrc), Htr, bind_trace.
  simpl. by rewrite app_nil_r.
Qed.

(** C4 (defect of the code). ping, traceroute and bgp_route are one
    builder up to their tag.  bgp_community is written to be a fourth: with
    the protocol of the target where it reads [self.query_afi], its text is
    that builder under the tag "bgp_community".  But [query_afi] is no
    attribute of the object, and on a request that the other three resolve,
    bgp_community raises [AttributeError] for it. *)
Theorem bgp_community_differs (self : Construct) (v : ip_version)
    (vrf : gmap string Afi) (afi : Afi) :
  ip_network_version (query_target self) = Some v →
  Device.vrfs (device self) !! query_vrf self = Some vrf →
  vrf !! ("ipv" +:+ version_str v) = Some afi →
  (∀ k, resolves_by_target k = true →
        builder commands k self =
          tagged_builder commands (query_type k) self) ∧
  bgp_community_body commands self vrf ("ipv" +:+ version_str v) =
    tagged_builder commands "bgp_community" self ∧
  builder commands BgpCommunity self =
    ([], Raise (AttributeError "query_afi")) ∧
  (transport self = "rest" →
   ∃ payload,
     tagged_builder commands "bgp_community" self =
       ([], Return (PyList [payload]))).
Proof.
  intros Hv Hvrf Hafi. repeat split.
  - intros k. apply builder_tagged.
  - rewrite (tagged_builder_resolved _ _ _ _ _ Hv Hvrf Hafi).
    unfold bgp_community_body.
    by rewrite (getattr_some _ _ _ Hafi), bind_ret.
  - simpl. by rewrite bgp_community_raises, Hvrf.
  - intros Htr. rewrite (tagged_builder_resolved _ _ _ _ _ Hv Hvrf Hafi), Htr.
    by eexists.
Qed.

(** C10 (defect of the code). [bgp_aspath] looks up [self.query_afi]
    before anything else, and no such attribute exists: every call raises
    [AttributeError] for "query_afi", so [get_src] is not reached and no
    output carries a source. *)
Theorem bgp_aspath_never_reaches_get_src (self : Construct) :
  builder commands BgpAspath self = ([], Raise (AttributeError "query_afi")).
Proof. apply bgp_aspath_raises. Qed.

End Builders.

(** ** The lab request, run *)

Section Scenarios.

Local Existing Instance basic_runtime.

Lemma lab_init (v : ip_version) (target vrf transport : string) :
  basic_ip_version target = Some v →
  __init__ lab_device (lab_request target vrf) transport =
    mret (lab_self v target vrf transport).
Proof.
  intros Hv.
  by apply (@init_ok basic_runtime lab_device (lab_request target vrf)
              transport target vrf v).
Qed.

(** C9. Target "192.0.2.1", VRF "default", transport "scrape": on a device
    whose default VRF has an IPv4 record with source address "203.0.113.1"
    and whose platform, an attribute name, has the template
    "ping {target} source {source}" at ("ipv4_default", "ping"), the ping
    builder returns the list ["ping 192.0.2.1 source 203.0.113.1"]. *)
Theorem ping_scrape_scenario (commands : Catalog) (dev : Device.t)
    (query_data : gmap string string) (vrf : gmap string Afi) (afi : Afi) :
  query_data !! "query_target" = Some "192.0.2.1" →
  query_data !! "query_vrf" = Some "default" →
  Device.vrfs dev !! "default" = Some vrf →
  vrf !! "ipv4" = Some afi →
  source_address afi = "203.0.113.1" →
  mem_char "." (Device.commands dev) = false →
  catalog_entry commands (Device.commands dev) "ipv4_default" "ping" =
    Some "ping {target} source {source}" →
  run commands Ping dev query_data "scrape" =
    ([CatalogAccess (Device.commands dev +:+ ".ipv4_default.ping")],
     Return (PyList ["ping 192.0.2.1 source 203.0.113.1"])).
Proof.
  intros Ht Hq Hvrf Hafi Hsrc Hdot Hentry. unfold run.
  rewrite (@init_ok basic_runtime dev query_data "scrape" "192.0.2.1"
             "default" IPv4 Ht Hq eq_refl), bind_ret.
  match goal with
  | |- builder _ _ ?s = _ =>
      rewrite (@builder_scrape basic_runtime commands Ping s IPv4 vrf afi
                 "ping {target} source {source}"
                 "ping 192.0.2.1 source 203.0.113.1");
      try done
  end.
  - change (result (device_commands commands (Device.commands dev)
                      "ipv4_default" "ping") =
            Return (NTemplate "ping {target} source {source}")).
    by rewrite (device_commands_found commands (Device.commands dev)
                  "ipv4_default" "ping" _ Hdot eq_refl eq_refl Hentry).
  - simpl. by rewrite Hsrc.
Qed.

End Scenarios.

Lemma ping_scrape_scenario_witness :
  @run basic_runtime lab_catalog Ping lab_device
    (lab_request "192.0.2.1" "default") "scrape" =
    ([CatalogAccess "cisco_ios.ipv4_default.ping"],
     Return (PyList ["ping 192.0.2.1 source 203.0.113.1"])).
Proof.
  exact (ping_scrape_scenario lab_catalog lab_device
           (lab_request "192.0.2.1" "default") {[ "ipv4" := lab_afi ]} lab_afi
           eq_refl eq_refl eq_refl eq_refl eq_refl eq_refl eq_refl).
Defined.

(** A platform name with a dot is split by [attrgetter]: the entry stored
    under the whole name is not found. *)
Example dotted_platform_not_found :
  catalog_entry {[ "cisco.ios" := {[ "ipv4_default" := {[ "ping" := "ping" ]} ]} ]}
    "cisco.ios" "ipv4_default" "ping" = Some "ping" ∧
  device_commands {[ "cisco.ios" := {[ "ipv4_default" := {[ "ping" := "ping" ]} ]} ]}
    "cisco.ios" "ipv4_default" "ping" =
    ([CatalogAccess "cisco.ios.ipv4_default.ping"],
     Raise (AttributeError "cisco")).
Proof. split; reflexivity. Qed.

(** ** Instances and counterexamples *)

Lemma scrape_one_command_or_slip_witness :
  @builder basic_runtime lab_catalog Ping
    (lab_self IPv4 "192.0.2.1" "default" "scrape") =
    ([CatalogAccess "cisco_ios.ipv4_default.ping"],
     Return (PyList ["ping 192.0.2.1 source 203.0.113.1"])) ∧
  @builder basic_runtime lab_catalog BgpCommunity
    (lab_self IPv4 "192.0.2.1" "default" "scrape") =
    ([], Raise (AttributeError "query_afi")) ∧
  @builder basic_runtime lab_catalog BgpAspath
    (lab_self IPv4 "192.0.2.1" "default" "scrape") =
    ([], Raise (AttributeError "query_afi")).
Proof.
  destruct (@scrape_one_command_or_slip basic_runtime lab_catalog
              (lab_self IPv4 "192.0.2.1" "default" "scrape") eq_refl)
    as (_ & Hlist & Hcommunity & Haspath).
  split; [|split].
  - exact (Hlist Ping IPv4 {[ "ipv4" := lab_afi ]} lab_afi
             "ping {target} source {source}"
             "ping 192.0.2.1 source 203.0.113.1"
             eq_refl eq_refl eq_refl eq_refl eq_refl eq_refl).
  - exact (Hcommunity {[ "ipv4" := lab_afi ]} eq_refl).
  - exact Haspath.
Defined.

Lemma other_transport_returns_empty_witness :
  @builder basic_runtime lab_catalog Traceroute
    (lab_self IPv4 "192.0.2.1" "default" "telnet") =
    ([], Return (PyList [])).
Proof.
  apply (@other_transport_returns_empty basic_runtime lab_catalog Traceroute
           (lab_self IPv4 "192.0.2.1" "default" "telnet") IPv4
           {[ "ipv4" := lab_afi ]} lab_afi);
    [discriminate | discriminate | reflexivity ..].
Defined.

(** C3, as stated, fails: with transport "telnet" the ping builder returns
    normally, with the empty list. *)
Lemma ping_other_transport_returns :
  result (@builder basic_runtime lab_catalog Ping
            (lab_self IPv4 "192.0.2.1" "default" "telnet")) =
    Return (PyList []) ∧
  ¬ ∃ e,
      result (@builder basic_runtime lab_catalog Ping
                (lab_self IPv4 "192.0.2.1" "default" "telnet")) = Raise e.
Proof.
  split; [reflexivity |].
  intros [e He]. vm_compute in He. discriminate He.
Qed.

Lemma rest_returns_payload_list_witness :
  ∃ payload,
    @builder basic_runtime lab_catalog BgpRoute
      (lab_self IPv4 "192.0.2.1" "default" "rest") =
      ([], Return (PyList [payload])) ∧
    json_loads payload = Some [
      ("query_type", "bgp_route");
      ("afi", "ipv4");
      ("vrf", "default");
      ("source", "203.0.113.1");
      ("target", "192.0.2.1")].
Proof.
  exact (@rest_returns_payload_list basic_runtime lab_catalog BgpRoute
           (lab_self IPv4 "192.0.2.1" "default" "rest") IPv4
           {[ "ipv4" := lab_afi ]} lab_afi
           eq_refl eq_refl eq_refl eq_refl eq_refl).
Defined.

(** C5, as stated, fails: with transport "rest" the ping builder returns a
    list, not a string. *)
Lemma rest_ping_not_a_string :
  ¬ ∃ s,
      result (@builder basic_runtime lab_catalog Ping
                (lab_self IPv4 "192.0.2.1" "default" "rest")) =
        Return (PyStr s).
Proof. intros [s Hs]. vm_compute in Hs. discriminate Hs. Qed.

Lemma vrf_or_afi_missing_witness :
  @builder basic_runtime lab_catalog Ping
    (lab_self IPv4 "192.0.2.1" "CUSTOMER-Z" "scrape") =
    ([], Raise (AttributeError "CUSTOMER-Z")) ∧
  @builder basic_runtime lab_catalog Ping
    (lab_self IPv6 "2001:db8:0:0:0:0:0:1" "default" "scrape") =
    ([], Raise (AttributeError "ipv6")) ∧
  @builder basic_runtime lab_catalog BgpCommunity
    (lab_self IPv6 "2001:db8:0:0:0:0:0:1" "default" "scrape") =
    ([], Raise (AttributeError "query_afi")) ∧
  @builder basic_runtime lab_catalog BgpAspath
    (lab_self IPv4 "192.0.2.1" "CUSTOMER-Z" "scrape") =
    ([], Raise (AttributeError "query_afi")).
Proof.
  destruct (@vrf_or_afi_missing basic_runtime lab_catalog
              (lab_self IPv4 "192.0.2.1" "CUSTOMER-Z" "scrape") IPv4 eq_refl)
    as (Hvrf & _ & _ & Haspath).
  destruct (@vrf_or_afi_missing basic_runtime lab_catalog
              (lab_self IPv6 "2001:db8:0:0:0:0:0:1" "default" "scrape") IPv6
              eq_refl)
    as (_ & Hafi & Hcommunity & _).
  split; [|split; [|split]].
  - exact (Hvrf Ping (or_introl eq_refl) eq_refl eq_refl).
  - exact (Hafi Ping {[ "ipv4" := lab_afi ]} eq_refl eq_refl eq_refl).
  - exact (Hcommunity {[ "ipv4" := lab_afi ]} eq_refl).
  - exact Haspath.
Defined.

Lemma init_invalid_target_witness :
  @__init__ basic_runtime lab_device (lab_request "not-an-ip" "default")
    "scrape" = ([], Raise (ValueError "not-an-ip")) ∧
  ∀ k, @run basic_runtime lab_catalog k lab_device
         (lab_request "not-an-ip" "default") "scrape" =
         ([], Raise (ValueError "not-an-ip")).
Proof.
  exact (@init_invalid_target basic_runtime lab_catalog lab_device
           (lab_request "not-an-ip" "default") "scrape" "not-an-ip" "default"
           eq_refl eq_refl eq_refl).
Defined.

Lemma bgp_community_differs_witness :
  @bgp_community_body basic_runtime lab_catalog
    (lab_self IPv4 "192.0.2.1" "default" "rest") {[ "ipv4" := lab_afi ]}
    "ipv4" =
    @tagged_builder basic_runtime lab_catalog "bgp_community"
      (lab_self IPv4 "192.0.2.1" "default" "rest") ∧
  @builder basic_runtime lab_catalog BgpCommunity
    (lab_self IPv4 "192.0.2.1" "default" "rest") =
    ([], Raise (AttributeError "query_afi")) ∧
  ∃ payload,
    @tagged_builder basic_runtime lab_catalog "bgp_community"
      (lab_self IPv4 "192.0.2.1" "default" "rest") =
      ([], Return (PyList [payload])).
Proof.
  destruct (@bgp_community_differs basic_runtime lab_catalog
              (lab_self IPv4 "192.0.2.1" "default" "rest") IPv4
              {[ "ipv4" := lab_afi ]} lab_afi eq_refl eq_refl eq_refl)
    as (_ & Hbody & Hraise & Hpayload).
  exact (conj Hbody (conj Hraise (Hpayload eq_refl))).
Defined.

(** * Further properties of the class *)

Section Construction.

Context `{RT : Runtime}.

(** X1. [__init__] reads "query_target" and then "query_vrf" from the
    request: a request without "query_target" raises [KeyError] for it, and
    one with a target and without "query_vrf" raises [KeyError] for
    "query_vrf", whether or not the target would parse. *)
Theorem init_missing_key (device : Device.t) (query_data : gmap string string)
    (transport : string) :
  (query_data !! "query_target" = None →
   __init__ device query_data transport =
     ([], Raise (KeyError "query_target"))) ∧
  (∀ target,
     query_data !! "query_target" = Some target →
     query_data !! "query_vrf" = None →
     __init__ device query_data transport =
       ([], Raise (KeyError "query_vrf"))).
Proof.
  split.
  - intros Ht. unfold __init__, getitem. by rewrite Ht.
  - intros target Ht Hq. unfold __init__.
    rewrite (getitem_some _ _ _ Ht), bind_ret.
    unfold getitem. by rewrite Hq.
Qed.

(** X2. An object that [__init__] returns keeps the device, the request
    and the transport it was given; its target and VRF are the two entries
    of the request; its target parses; and its [cmd_type] is the one
    [get_cmd_type] derives from them, one of "ipv4_vrf", "ipv4_default",
    "ipv6_vrf" and "ipv6_default".  The catalog has not been read. *)
Theorem init_returns (dev : Device.t) (qd : gmap string string)
    (tr : string) (t : list event) (self : Construct) :
  __init__ dev qd tr = (t, Return self) →
  t = [] ∧ device self = dev ∧ query_data self = qd ∧ transport self = tr ∧
  qd !! "query_target" = Some (query_target self) ∧
  qd !! "query_vrf" = Some (query_vrf self) ∧
  (∃ v, ip_network_version (query_target self) = Some v ∧
        cmd_type self = "ipv" +:+ version_str v +:+
          (if bool_decide (query_vrf self ≠ "" ∧ query_vrf self ≠ "default")
           then "_vrf" else "_default")) ∧
  cmd_type self ∈ ["ipv4_vrf"; "ipv4_default"; "ipv6_vrf"; "ipv6_default"].
Proof.
  unfold __init__, getitem.
  destruct (qd !! "query_target") as [target|] eqn:Ht; [|done].
  rewrite bind_ret.
  destruct (qd !! "query_vrf") as [vrf|] eqn:Hq; [|done].
  rewrite bind_ret.
  destruct (ip_network_version target) as [v|] eqn:Hv.
  - rewrite (get_cmd_type_resolved _ vrf _ Hv), bind_ret.
    intros [= <- <-]. simpl. repeat split; [by exists v|].
    destruct v, (bool_decide _); simpl; set_solver.
  - unfold get_cmd_type. by rewrite (ip_network_protocol_fail _ Hv).
Qed.

End Construction.

Lemma init_missing_key_witness :
  @__init__ basic_runtime lab_device ∅ "scrape" =
    ([], Raise (KeyError "query_target")) ∧
  @__init__ basic_runtime lab_device {[ "query_target" := "not-an-ip" ]}
    "scrape" = ([], Raise (KeyError "query_vrf")).
Proof.
  split.
  - exact (proj1 (@init_missing_key basic_runtime lab_device ∅ "scrape")
             eq_refl).
  - exact (proj2 (@init_missing_key basic_runtime lab_device
                    {[ "query_target" := "not-an-ip" ]} "scrape")
             "not-an-ip" eq_refl eq_refl).
Defined.

Lemma init_returns_witness :
  cmd_type (lab_self IPv6 "2001:db8:0:0:0:0:0:1" "CUSTOMER-A" "rest") ∈
    ["ipv4_vrf"; "ipv4_default"; "ipv6_vrf"; "ipv6_default"].
Proof.
  exact (proj2 (proj2 (proj2 (proj2 (proj2 (proj2 (proj2
    (@init_returns basic_runtime lab_device
       (lab_request "2001:db8:0:0:0:0:0:1" "CUSTOMER-A") "rest" []
       (lab_self IPv6 "2001:db8:0:0:0:0:0:1" "CUSTOMER-A" "rest")
       eq_refl)))))))).
Defined.

Section Resolution.

Variable commands : Catalog.

(** X3. For a platform, a cmd_type and a query_type that can only be data
    attributes (no dot, no leading underscore), whatever [device_commands]
    returns is a template string, the one the catalog stores for exactly the
    triple asked for, found in one catalog access: it never answers with the
    template of another platform, cmd_type or query_type. *)
Theorem device_commands_returns (nos afi query_type : string)
    (t : list event) (o : node) :
  plain_name nos = true → plain_name afi = true →
  plain_name query_type = true →
  device_commands commands nos afi query_type = (t, Return o) →
  t = [CatalogAccess (nos +:+ "." +:+ afi +:+ "." +:+ query_type)] ∧
  ∃ tmpl, o = NTemplate tmpl ∧
          catalog_entry commands nos afi query_type = Some tmpl.
Proof.
  intros Hn%plain_name_no_dot Ha%plain_name_no_dot Hq%plain_name_no_dot.
  rewrite device_commands_walk. intros [= <- Hwalk]. split; [done|].
  rewrite !split_no_sep in Hwalk by done. simpl app in Hwalk.
  rewrite walk_triple in Hwalk.
  destruct (catalog_entry commands nos afi query_type) as [tmpl|]; [|done].
  injection Hwalk as <-. by exists tmpl.
Qed.


End Resolution.

Section Accesses.

Context `{RT : Runtime}.

Lemma format_then_trace (cmd : node) (kwargs : list (string * string))
    (wrap : string → pyval) :
  trace (format cmd kwargs ≫= λ line, mret (wrap line)) = [].
Proof.
  destruct cmd; try done. simpl. unfold lift.
  by destruct (str_format t kwargs).
Qed.

(** X6. A builder reads the catalog at most once, and only with transport
    "scrape": the accesses of any call are none at all, or the single path
    platform.cmd_type.query_type of ping, traceroute or bgp_route under
    "scrape".  bgp_community and bgp_aspath never read it. *)
Theorem builder_catalog_accesses (commands : Catalog) (k : query_kind)
    (self : Construct) :
  trace (builder commands k self) = [] ∨
  (transport self = "scrape" ∧ resolves_by_target k = true ∧
   trace (builder commands k self) =
     [CatalogAccess (Device.commands (device self) +:+ "." +:+
                     cmd_type self +:+ "." +:+ query_type k)]).
Proof.
  destruct (resolves_by_target k) eqn:Hk.
  2: { left. destruct k; try discriminate Hk; unfold builder.
       - by rewrite bgp_community_raises.
       - by rewrite bgp_aspath_raises. }
  rewrite (builder_tagged _ _ _ Hk). unfold tagged_builder, ip_network_protocol.
  destruct (ip_network_version (query_target self)) as [v|];
    [|left; reflexivity].
  rewrite bind_ret.
  destruct (Device.vrfs (device self) !! query_vrf self) as [vrf|] eqn:Hvrf;
    [|rewrite (getattr_none _ _ Hvrf); left; reflexivity].
  rewrite (getattr_some _ _ _ Hvrf), bind_ret.
  destruct (vrf !! ("ipv" +:+ version_str v)) as [afi|] eqn:Hafi;
    [|rewrite (getattr_none _ _ Hafi); left; reflexivity].
  rewrite (getattr_some _ _ _ Hafi), bind_ret.
  destruct (String.eqb_spec (transport self) "rest") as [Hrest|Hrest];
    [left; reflexivity|].
  destruct (String.eqb_spec (transport self) "scrape") as [Hscrape|Hscrape];
    [|left; reflexivity].
  right. repeat split; [done|].
  rewrite device_commands_walk.
  destruct (walk _ (NCommands commands)) as [cmd|e]; [|done].
  rewrite bind_trace. unfold trace at 1. cbn [fst].
  by rewrite format_then_trace.
Qed.

(** X7. Only "scrape" depends on the catalog: with any other transport a
    builder gives the same result whatever the catalog holds. *)
Theorem builder_ignores_catalog (commands1 commands2 : Catalog)
    (k : query_kind) (self : Construct) :
  transport self ≠ "scrape" →
  builder commands1 k self = builder commands2 k self.
Proof.
  intros Hscrape%String.eqb_neq.
  destruct (resolves_by_target k) eqn:Hk.
  2: { destruct k; try discriminate Hk; unfold builder.
       - by rewrite !bgp_community_raises.
       - by rewrite !bgp_aspath_raises. }
  rewrite !(builder_tagged _ _ _ Hk). unfold tagged_builder.
  by rewrite Hscrape.
Qed.

Variable commands : Catalog.


(** X9. With transport "scrape", an exception of [format] on the resolved
    template leaves the builder as it is, after the one catalog access: no
    partial list is returned. *)
Theorem builder_scrape_format_error (k : query_kind) (self : Construct)
    (v : ip_version) (vrf : gmap string Afi) (afi : Afi) (tmpl : string)
    (e : exn) :
  transport self = "scrape" →
  resolves_by_target k = true →
  ip_network_version (query_target self) = Some v →
  Device.vrfs (device self) !! query_vrf self = Some vrf →
  vrf !! ("ipv" +:+ version_str v) = Some afi →
  result (device_commands commands (Device.commands (device self))
            (cmd_type self) (query_type k)) = Return (NTemplate tmpl) →
  str_format tmpl [
    ("target", query_target self);
    ("source", source_address afi);
    ("vrf", vrf_name afi);
    ("afi", afi_name afi)] = Raise e →
  builder commands k self =
    ([CatalogAccess (Device.commands (device self) +:+ "." +:+
                     cmd_type self +:+ "." +:+ query_type k)],
     Raise e).
Proof.
  intros Htr Hk Hv Hvrf Hafi Hcmd Hfmt.
  rewrite (builder_tagged _ _ _ Hk).
  rewrite (tagged_builder_resolved _ _ _ _ _ _ Hv Hvrf Hafi), Htr.
  rewrite device_commands_walk in Hcmd |- *.
  unfold result in Hcmd. cbn [snd] in Hcmd.
  rewrite Hcmd, bind_trace. simpl. unfold lift.
  by rewrite Hfmt.
Qed.

End Accesses.

Section EndToEnd.

Context `{RT : Runtime}.
Variable commands : Catalog.


(** X10. From request to command: for ping, traceroute and bgp_route with
    transport "scrape", when the target parses with version [v], the VRF of
    the request has a record for "ipv{v}", and the catalog stores a template
    for the platform (an attribute name) under "ipv{v}_vrf" if the VRF name
    is non-empty and not "default", under "ipv{v}_default" otherwise, then
    construction followed by the builder returns the list of the one line
    that the template formats to, after one catalog access. *)
Theorem run_scrape (k : query_kind) (dev : Device.t)
    (qd : gmap string string) (target vrfname : string) (v : ip_version)
    (vrf : gmap string Afi) (afi : Afi) (tmpl line : string) :
  resolves_by_target k = true →
  qd !! "query_target" = Some target →
  qd !! "query_vrf" = Some vrfname →
  ip_network_version target = Some v →
  Device.vrfs dev !! vrfname = Some vrf →
  vrf !! ("ipv" +:+ version_str v) = Some afi →
  mem_char "." (Device.commands dev) = false →
  catalog_entry commands (Device.commands dev)
    ("ipv" +:+ version_str v +:+
     (if bool_decide (vrfname ≠ "" ∧ vrfname ≠ "default")
      then "_vrf" else "_default"))
    (query_type k) = Some tmpl →
  str_format tmpl [
    ("target", target);
    ("source", source_address afi);
    ("vrf", vrf_name afi);
    ("afi", afi_name afi)] = Return line →
  run commands k dev qd "scrape" =
    ([CatalogAccess (Device.commands dev +:+ "." +:+
        ("ipv" +:+ version_str v +:+
         (if bool_decide (vrfname ≠ "" ∧ vrfname ≠ "default")
          then "_vrf" else "_default")) +:+ "." +:+ query_type k)],
     Return (PyList [line])).
Proof.
  intros Hk Ht Hq Hv Hvrf Hafi Hdot Hentry Hfmt. unfold run.
  rewrite (init_ok dev qd "scrape" target vrfname v Ht Hq Hv), bind_ret.
  match goal with
  | |- builder _ _ ?s = _ =>
      rewrite (builder_scrape commands k s v vrf afi tmpl line); try done
  end.
  cbn [device cmd_type].
  rewrite (device_commands_found commands _ _ _ tmpl Hdot); try done.
  - by destruct v, (bool_decide _).
  - by destruct k.
Qed.

(** X11. From request to payload: for ping, traceroute and bgp_route with
    transport "rest", when the target parses with version [v] and the VRF of
    the request has a record for "ipv{v}", construction followed by the
    builder returns the list of one payload, whose "target" is the target
    of the request and whose "afi", "vrf" and "source" are the fields of
    that record; the catalog is not read. *)
Theorem run_rest (k : query_kind) (dev : Device.t)
    (qd : gmap string string) (target vrfname : string) (v : ip_version)
    (vrf : gmap string Afi) (afi : Afi) :
  resolves_by_target k = true →
  qd !! "query_target" = Some target →
  qd !! "query_vrf" = Some vrfname →
  ip_network_version target = Some v →
  Device.vrfs dev !! vrfname = Some vrf →
  vrf !! ("ipv" +:+ version_str v) = Some afi →
  run commands k dev qd "rest" =
    ([], Return (PyList [json_dumps [
       ("query_type", query_type k);
       ("afi", afi_name afi);
       ("vrf", vrf_name afi);
       ("source", source_address afi);
       ("target", target)]])).
Proof.
  intros Hk Ht Hq Hv Hvrf Hafi. unfold run.
  rewrite (init_ok dev qd "rest" target vrfname v Ht Hq Hv), bind_ret.
  match goal with
  | |- builder _ _ ?s = _ =>
      by rewrite (rest_payload commands k s v vrf afi)
  end.
Qed.


(** X13. In the text of [bgp_aspath] that follows the lookup of
    [self.query_afi], the source is resolved before the transport is looked
    at: without a device attribute "src_addr_{afi}" it raises
    [AttributeError] for that name under every transport, and with one, a
    transport that is neither "rest" nor "scrape" yields [None].  Neither
    case reads the catalog. *)
Theorem bgp_aspath_body_source_first (self : Construct)
    (query_afi : string → string → M string) (t : list event)
    (afi : string) :
  query_afi (query_target self) (query_vrf self) = (t, Return afi) →
  (Device.attrs (device self) !! ("src_addr_" +:+ afi) = None →
   bgp_aspath_body commands self query_afi =
     (t, Raise (AttributeError ("src_addr_" +:+ afi)))) ∧
  (∀ src,
     Device.attrs (device self) !! ("src_addr_" +:+ afi) = Some src →
     transport self ≠ "rest" → transport self ≠ "scrape" →
     bgp_aspath_body commands self query_afi = (t, Return PyNone)).
Proof.
  intros Hq. split.
  - intros Hsrc. unfold bgp_aspath_body, get_src.
    rewrite Hq, bind_trace, (getattr_none _ _ Hsrc). simpl.
    by rewrite app_nil_r.
  - intros src Hsrc Hrest%String.eqb_neq Hscrape%String.eqb_neq.
    rewrite (bgp_aspath_body_resolved _ _ _ _ _ _ Hq Hsrc), Hrest, Hscrape.
    rewrite bind_trace. simpl. by rewrite app_nil_r.
Qed.

End EndToEnd.

(** ** Instances of the further properties *)

Lemma device_commands_returns_witness :
  [CatalogAccess "cisco_ios.ipv4_default.bgp_route"] =
    [CatalogAccess "cisco_ios.ipv4_default.bgp_route"] ∧
  ∃ tmpl,
    NTemplate "show bgp ipv4 unicast {target}" = NTemplate tmpl ∧
    catalog_entry lab_catalog "cisco_ios" "ipv4_default" "bgp_route" =
      Some tmpl.
Proof.
  exact (device_commands_returns lab_catalog "cisco_ios" "ipv4_default"
           "bgp_route" [CatalogAccess "cisco_ios.ipv4_default.bgp_route"]
           (NTemplate "show bgp ipv4 unicast {target}")
           eq_refl eq_refl eq_refl eq_refl).
Defined.


Lemma builder_ignores_catalog_witness :
  @builder basic_runtime lab_catalog Ping
    (lab_self IPv4 "192.0.2.1" "default" "rest") =
    @builder basic_runtime ∅ Ping
      (lab_self IPv4 "192.0.2.1" "default" "rest").
Proof.
  apply (@builder_ignores_catalog basic_runtime lab_catalog ∅ Ping
           (lab_self IPv4 "192.0.2.1" "default" "rest")); discriminate.
Defined.


Lemma builder_scrape_format_error_witness :
  @builder basic_runtime
    {[ "cisco_ios" := {[ "ipv4_default" := {[ "ping" := "ping {host}" ]} ]} ]}
    Ping (lab_self IPv4 "192.0.2.1" "default" "scrape") =
    ([CatalogAccess "cisco_ios.ipv4_default.ping"], Raise (KeyError "host")).
Proof.
  exact (@builder_scrape_format_error basic_runtime
           {[ "cisco_ios" :=
                {[ "ipv4_default" := {[ "ping" := "ping {host}" ]} ]} ]}
           Ping (lab_self IPv4 "192.0.2.1" "default" "scrape") IPv4
           {[ "ipv4" := lab_afi ]} lab_afi "ping {host}" (KeyError "host")
           eq_refl eq_refl eq_refl eq_refl eq_refl eq_refl eq_refl).
Defined.

Lemma run_scrape_witness :
  @run basic_runtime lab_catalog BgpRoute lab_device
    (lab_request "192.0.2.1" "default") "scrape" =
    ([CatalogAccess "cisco_ios.ipv4_default.bgp_route"],
     Return (PyList ["show bgp ipv4 unicast 192.0.2.1"])).
Proof.
  exact (@run_scrape basic_runtime lab_catalog BgpRoute lab_device
           (lab_request "192.0.2.1" "default") "192.0.2.1" "default" IPv4
           {[ "ipv4" := lab_afi ]} lab_afi "show bgp ipv4 unicast {target}"
           "show bgp ipv4 unicast 192.0.2.1"
           eq_refl eq_refl eq_refl eq_refl eq_refl eq_refl eq_refl eq_refl
           eq_refl).
Defined.

Lemma run_rest_witness :
  @run basic_runtime lab_catalog Traceroute lab_device
    (lab_request "192.0.2.1" "default") "rest" =
    ([], Return (PyList [json_dumps [
       ("query_type", "traceroute");
       ("afi", "ipv4");
       ("vrf", "default");
       ("source", "203.0.113.1");
       ("target", "192.0.2.1")]])).
Proof.
  exact (@run_rest basic_runtime lab_catalog Traceroute lab_device
           (lab_request "192.0.2.1" "default") "192.0.2.1" "default" IPv4
           {[ "ipv4" := lab_afi ]} lab_afi
           eq_refl eq_refl eq_refl eq_refl eq_refl eq_refl).
Defined.


Lemma bgp_aspath_body_source_first_witness :
  @bgp_aspath_body basic_runtime lab_catalog
    (lab_self IPv6 "2001:db8:0:0:0:0:0:1" "default" "scrape")
    (λ _ _, mret "ipv6") =
    ([], Raise (AttributeError "src_addr_ipv6")) ∧
  @bgp_aspath_body basic_runtime lab_catalog
    (lab_self IPv4 "192.0.2.1" "default" "telnet") (λ _ _, mret "ipv4") =
    ([], Return PyNone).
Proof.
  split.
  - exact (proj1 (@bgp_aspath_body_source_first basic_runtime lab_catalog
                    (lab_self IPv6 "2001:db8:0:0:0:0:0:1" "default" "scrape")
                    (λ _ _, mret "ipv6") [] "ipv6" eq_refl) eq_refl).
  - apply (proj2 (@bgp_aspath_body_source_first basic_runtime lab_catalog
                    (lab_self IPv4 "192.0.2.1" "default" "telnet")
                    (λ _ _, mret "ipv4") [] "ipv4" eq_refl)
             (IPv4Address 3405803777));
      [reflexivity | discriminate | discriminate].
Defined.
